(** * Catchat desktop launcher ([main.py]): model and verified properties

    The launcher is pure UI glue: every statement of [main.py] is an effect
    on the outside world (an import probe, a console line, a dialog, a
    browser tab, a Tk widget, a thread).  The embedding therefore threads
    an explicit [world] through a small state-and-exception monad; the
    functions of the source are monadic values of the same names. *)

From Stdlib Require Import String Ascii List ZArith Bool Lia Permutation.
Import ListNotations.
Local Open Scope string_scope.
Local Open Scope list_scope.
Local Open Scope Z_scope.

(** ** Values of the Python runtime that the launcher touches *)

(** The three module objects the source binds at import time. *)
Inductive pymodule : Type :=
| mod_tkinter
| mod_tkinter_messagebox
| mod_webview.

(** [sys.stdout] (the default of [print]) and [sys.stderr]. *)
Inductive stream : Type := Stdout | Stderr.

(** Function objects of [main.py] that are passed around as values:
    the two button commands and the thread target. *)
Inductive callable : Type :=
| Fn_open_in_browser
| Fn_open_in_webview
| Fn__run.

Inductive exn : Type :=
| AttributeError (attr : string)   (* attribute access on [None] *)
| TclError (msg : string)
| WebViewException (msg : string). (* raised by pywebview *)

(** Observable effects, in the order a thread performs them. *)
Inductive event : Type :=
| Import (name : string) (ok : bool)         (* an import statement and its outcome *)
| Print (file : stream) (text : string)      (* print(text, file=file) *)
| WebbrowserOpen (url : string) (new : Z)    (* webbrowser.open(url, new=new) *)
| ShowError (title message : string)         (* messagebox.showerror(title, message) *)
| CreateWindow (title url : string)          (* webview.create_window(title, url) *)
| WebviewStart                               (* webview.start() runs the GUI loop *)
| ThreadStart (target : callable) (daemon : bool). (* Thread(...).start() *)

(** ** Tk widgets *)

Inductive master : Type :=
| Toplevel              (* the [tk.Tk()] root *)
| Widget (id : nat).    (* a widget created earlier *)

(** The widget constructors the source calls, with the keyword arguments
    it passes (Tk defaults written out where the source omits them). *)
Inductive widget_spec : Type :=
| Frame (parent : master) (padx pady : Z)
| Label (parent : master) (text : string)
        (font : option (option string * Z)) (fg : option string)
| Button (parent : master) (text : string) (width : Z) (command : callable).

Inductive placement : Type :=
| Pack (expand : bool) (fill : string) (pady : Z * Z)
| Grid (row column padx pady : Z).

Record tk_window : Type := Window {
  title : string;
  geometry : string;
  children : list (widget_spec * option placement);
  alive : bool
}.

(** What the user does to the launcher window. *)
Inductive ui_event : Type :=
| Click (id : nat)
| WM_DELETE_WINDOW.

(** ** Module globals of [main.py] *)

Record globals : Type := Globals {
  tk : option pymodule;
  messagebox : option pymodule;
  webview : option pymodule;
  HAS_WEBVIEW : bool;
  URL : string
}.

(** Which optional modules the interpreter can import. *)
Record runtime : Type := Runtime {
  can_import_tkinter : bool;
  can_import_messagebox : bool;
  can_import_webview : bool
}.

(** Lines 15-20: one [try] around both tkinter imports; any failure
    rebinds both names to [None]. *)
Definition import_tkinter (rt : runtime) : (option pymodule * option pymodule) * list event :=
  if can_import_tkinter rt then
    if can_import_messagebox rt then
      ((Some mod_tkinter, Some mod_tkinter_messagebox),
       [Import "tkinter" true; Import "tkinter.messagebox" true])
    else
      ((None, None), [Import "tkinter" true; Import "tkinter.messagebox" false])
  else
    ((None, None), [Import "tkinter" false]).

(** Lines 22-27. *)
Definition import_webview (rt : runtime) : (option pymodule * bool) * list event :=
  if can_import_webview rt then
    ((Some mod_webview, true), [Import "webview" true])
  else
    ((None, false), [Import "webview" false]).

(** Lines 15-29, the module body up to the function definitions. *)
Definition module_init (rt : runtime) : globals * list event :=
  let '((tk_, messagebox_), ev1) := import_tkinter rt in
  let '((webview_, has_webview), ev2) := import_webview rt in
  (Globals tk_ messagebox_ webview_ has_webview "https://awoo-co.github.io/catchat/",
   ev1 ++ ev2).

Definition module_globals (rt : runtime) : globals := fst (module_init rt).

(** ** The world and the monad *)

Record thread : Type := Thread {
  target : callable;
  daemon : bool
}.

Record world : Type := MkWorld {
  genv : globals;              (* module globals *)
  log : list event;            (* effects of the running thread, oldest first *)
  root : option tk_window;     (* the Tk root, once created *)
  threads : list thread;       (* threads started so far *)
  pending : list ui_event;     (* user input still to be delivered *)
  view_closed : bool;          (* whether the user closes an embedded view *)
  on_main_thread : bool        (* whether the running thread is the main thread *)
}.

(** A world as the main thread sees it. *)
Definition World (g : globals) (l : list event) (r : option tk_window)
    (ts : list thread) (evs : list ui_event) (closed : bool) : world :=
  MkWorld g l r ts evs closed true.

Definition emit (e : event) (w : world) : world :=
  MkWorld (genv w) (log w ++ [e]) (root w) (threads w) (pending w) (view_closed w)
          (on_main_thread w).

Definition set_root (r : option tk_window) (w : world) : world :=
  MkWorld (genv w) (log w) r (threads w) (pending w) (view_closed w) (on_main_thread w).

Definition add_thread (t : thread) (w : world) : world :=
  MkWorld (genv w) (log w) (root w) (threads w ++ [t]) (pending w) (view_closed w)
          (on_main_thread w).

Definition set_pending (evs : list ui_event) (w : world) : world :=
  MkWorld (genv w) (log w) (root w) (threads w) evs (view_closed w) (on_main_thread w).

(** A call returns, raises, or never comes back for the given input. *)
Inductive result (A : Type) : Type :=
| Ret (a : A)
| Raise (e : exn)
| Block.
Arguments Ret {A} a.
Arguments Raise {A} e.
Arguments Block {A}.

Definition M (A : Type) : Type := world -> result A * world.

Definition ret {A} (a : A) : M A := fun w => (Ret a, w).

Definition bind {A B} (m : M A) (k : A -> M B) : M B :=
  fun w =>
    match m w with
    | (Ret a, w') => k a w'
    | (Raise e, w') => (Raise e, w')
    | (Block, w') => (Block, w')
    end.

Declare Scope py_scope.
Delimit Scope py_scope with py.
Notation "x <- c1 ;; c2" := (bind c1 (fun x => c2))
  (at level 100, c1 at next level, right associativity) : py_scope.
Notation "c1 ;; c2" := (bind c1 (fun _ => c2))
  (at level 100, right associativity) : py_scope.
Local Open Scope py_scope.

Definition raise {A} (e : exn) : M A := fun w => (Raise e, w).

Definition effect (e : event) : M unit := fun w => (Ret tt, emit e w).

(** Reading a module global. *)
Definition global {A} (name : globals -> A) : M A := fun w => (Ret (name (genv w)), w).

(** [m.attr] where [m] is a global bound to a module or to [None]. *)
Definition getattr (name : globals -> option pymodule) (attr : string) : M pymodule :=
  m <- global name ;;
  match m with
  | Some obj => ret obj
  | None => raise (AttributeError attr)
  end.

(** ** Library calls *)

Definition print (file : stream) (text : string) : M unit :=
  effect (Print file text).

Definition webbrowser_open (url : string) (new : Z) : M unit :=
  effect (WebbrowserOpen url new).

(** A modal dialog: the call comes back when the user dismisses it. *)
Definition messagebox_showerror (title_ message : string) : M unit :=
  getattr messagebox "showerror" ;;
  effect (ShowError title_ message).

(** [webview.create_window] registers a window; pywebview shows it when
    [webview.start()] runs the GUI loop. *)
Definition webview_create_window (title_ url : string) : M unit :=
  getattr webview "create_window" ;;
  effect (CreateWindow title_ url).

Definition main_thread_only : string := "pywebview must be run on a main thread.".

(** [webview.start()]: pywebview refuses to run off the main thread and
    raises [WebViewException]; on the main thread it shows the registered
    windows and runs the GUI loop, coming back only once the view has been
    closed. *)
Definition webview_start : M unit :=
  getattr webview "start" ;;
  main_ <- (fun w => (Ret (on_main_thread w), w)) ;;
  if main_ then
    effect WebviewStart ;;
    fun w => if view_closed w then (Ret tt, w) else (Block, w)
  else
    raise (WebViewException main_thread_only).

(** [threading.Thread(target=..., daemon=...)] followed by [.start()]:
    the caller goes on at once, the target runs on the new thread. *)
Definition thread_start (t : thread) : M unit :=
  fun w => (Ret tt, add_thread t (emit (ThreadStart (target t) (daemon t)) w)).

(** ** The functions of [main.py] *)

Definition nl : string := String "010"%char EmptyString.

Definition open_in_browser : M unit :=
  url <- global URL ;;
  webbrowser_open url 2.

Definition _run : M unit :=
  url <- global URL ;;
  webview_create_window "Catchat" url ;;
  webview_start.

Definition open_in_webview : M unit :=
  has <- global HAS_WEBVIEW ;;
  if negb has then
    mb <- global messagebox ;;
    match mb with
    | Some _ =>
        messagebox_showerror "Missing dependency"
          ("pywebview is not installed." ++ nl ++ "Install with: pip install pywebview")%string
    | None =>
        print Stderr "pywebview is not installed. Install with: pip install pywebview"
    end
  else
    thread_start (Thread Fn__run true).

Definition call (f : callable) : M unit :=
  match f with
  | Fn_open_in_browser => open_in_browser
  | Fn_open_in_webview => open_in_webview
  | Fn__run => _run
  end.

(** ** Tkinter calls *)

Definition fresh_window : tk_window := Window "tk" EmptyString [] true.

(** Apply [f] to the live root window. *)
Definition with_window {A} (f : tk_window -> result A * tk_window) : M A :=
  fun w =>
    match root w with
    | Some win =>
        if alive win then
          let '(r, win') := f win in (r, set_root (Some win') w)
        else (Raise (TclError "application has been destroyed"), w)
    | None => (Raise (TclError "no default root window"), w)
    end.

(** [tk.Tk()] *)
Definition tk_Tk : M master :=
  getattr tk "Tk" ;;
  fun w => (Ret Toplevel, set_root (Some fresh_window) w).

(** [root.title(s)] and [root.geometry(s)]; the world has one root. *)
Definition wm_title (_ : master) (s : string) : M unit :=
  with_window (fun win => (Ret tt, Window s (geometry win) (children win) (alive win))).

Definition wm_geometry (_ : master) (s : string) : M unit :=
  with_window (fun win => (Ret tt, Window (title win) s (children win) (alive win))).

(** A new widget is appended to the window; its position is its id. *)
Definition create_widget (cls : string) (ws : widget_spec) : M nat :=
  getattr tk cls ;;
  with_window (fun win =>
    (Ret (length (children win)),
     Window (title win) (geometry win) (children win ++ [(ws, None)]) (alive win))).

(** [tk.Frame(parent, padx=.., pady=..)] *)
Definition tk_Frame (parent : master) (padx pady : Z) : M nat :=
  create_widget "Frame" (Frame parent padx pady).

(** [tk.Label(parent, text=.., font=.., fg=..)] *)
Definition tk_Label (parent : master) (text : string)
    (font : option (option string * Z)) (fg : option string) : M nat :=
  create_widget "Label" (Label parent text font fg).

(** [tk.Button(parent, text=.., width=.., command=..)] *)
Definition tk_Button (parent : master) (text : string) (width : Z)
    (command : callable) : M nat :=
  create_widget "Button" (Button parent text width command).

Fixpoint set_placement (id : nat) (p : placement)
    (cs : list (widget_spec * option placement)) : option (list (widget_spec * option placement)) :=
  match cs, id with
  | [], _ => None
  | (ws, _) :: rest, O => Some ((ws, Some p) :: rest)
  | c :: rest, S n =>
      match set_placement n p rest with
      | Some rest' => Some (c :: rest')
      | None => None
      end
  end.

(** [widget.pack(...)] and [widget.grid(...)] *)
Definition place (id : nat) (p : placement) : M unit :=
  with_window (fun win =>
    match set_placement id p (children win) with
    | Some cs => (Ret tt, Window (title win) (geometry win) cs (alive win))
    | None => (Raise (TclError "bad window path name"), win)
    end).

Definition pack (id : nat) (expand : bool) (fill : string) (pady : Z * Z) : M unit :=
  place id (Pack expand fill pady).

Definition grid (id : nat) (row column padx pady : Z) : M unit :=
  place id (Grid row column padx pady).

(** The command bound to widget [id], if it is a button of a live window. *)
Definition command_of (id : nat) (w : world) : option callable :=
  match root w with
  | Some win =>
      if alive win then
        match nth_error (children win) id with
        | Some (Button _ _ _ c, _) => Some c
        | _ => None
        end
      else None
  | None => None
  end.

Definition destroy (w : world) : world :=
  match root w with
  | Some win => set_root (Some (Window (title win) (geometry win) (children win) false)) w
  | None => w
  end.

(** The Tk event loop over the user's input.  A click on a button runs
    its command on the loop's own thread; Tk reports an exception of a
    command on stderr and keeps looping; closing the window destroys the
    root and ends the loop; with no input left the loop waits. *)
Fixpoint dispatch (evs : list ui_event) : M unit :=
  match evs with
  | [] => fun w => (Block, set_pending [] w)
  | WM_DELETE_WINDOW :: rest => fun w => (Ret tt, set_pending rest (destroy w))
  | Click id :: rest =>
      fun w =>
        match command_of id w with
        | Some c =>
            match call c w with
            | (Ret _, w') => dispatch rest w'
            | (Raise _, w') =>
                dispatch rest (emit (Print Stderr "Exception in Tkinter callback") w')
            | (Block, w') => (Block, set_pending rest w')
            end
        | None => dispatch rest w
        end
  end.

(** [root.mainloop()] *)
Definition mainloop (_ : master) : M unit :=
  fun w => dispatch (pending w) w.

(** ** [main] *)

Definition main : M unit :=
  tk_ <- global tk ;;
  match tk_ with
  | None =>
      print Stdout "Tkinter is not available in this environment. Opening in browser..." ;;
      open_in_browser ;;
      ret tt
  | Some _ =>
      root <- tk_Tk ;;
      wm_title root "Catchat" ;;
      wm_geometry root "420x160" ;;
      frm <- tk_Frame root 12 12 ;;
      pack frm true "both" (0, 0) ;;
      lbl <- tk_Label (Widget frm) "Open Catchat web UI" (Some (None, 14)) None ;;
      pack lbl false "none" (0, 10) ;;
      btn_frame <- tk_Frame (Widget frm) 0 0 ;;
      pack btn_frame false "none" (0, 0) ;;
      b1 <- tk_Button (Widget btn_frame) "Open in App (embedded)" 22 Fn_open_in_webview ;;
      grid b1 0 0 6 6 ;;
      b2 <- tk_Button (Widget btn_frame) "Open in Browser" 22 Fn_open_in_browser ;;
      grid b2 0 1 6 6 ;;
      has <- global HAS_WEBVIEW ;;
      (if negb has then
         note <- tk_Label (Widget frm)
                   "Note: For embedded view install 'pywebview' (pip install pywebview)"
                   None (Some "gray") ;;
         pack note false "none" (10, 0)
       else ret tt) ;;
      mainloop root
  end.

(** ** The process *)

(** Running the script: the module body, then [main()] under the
    [__name__ == "__main__"] guard.  [evs] is what the user will do to the
    launcher window, [closed] whether an embedded view gets closed. *)
Definition program (rt : runtime) (evs : list ui_event) (closed : bool) : result unit * world :=
  let '(g, imports) := module_init rt in
  main (World g imports None [] evs closed).

(** A started thread runs its target against the same globals, off the
    main thread, with an effect log of its own.  When the target raises,
    the interpreter reports the exception on stderr and the thread ends. *)
Definition run_thread (w : world) (t : thread) : result unit * list event :=
  match call (target t) (MkWorld (genv w) [] None [] [] (view_closed w) false) with
  | (Raise e, w') => (Raise e, log (emit (Print Stderr "Exception in thread") w'))
  | (r, w') => (r, log w')
  end.

(** The interpreter leaves once the main thread is done and every
    non-daemon thread has finished; daemon threads are abandoned. *)
Definition keeps_alive (w : world) (t : thread) : bool :=
  negb (daemon t) &&
  match fst (run_thread w t) with
  | Block => true
  | _ => false
  end.

Definition process_exits (r : result unit) (w : world) : bool :=
  match r with
  | Block => false
  | _ => forallb (fun t => negb (keeps_alive w t)) (threads w)
  end.

(** ** Observers used by the statements *)

Definition is_browser_open (e : event) : bool :=
  match e with WebbrowserOpen _ _ => true | _ => false end.

Definition is_print (e : event) : bool :=
  match e with Print _ _ => true | _ => false end.

Definition is_create_window (e : event) : bool :=
  match e with CreateWindow _ _ => true | _ => false end.

Definition is_webview_start (e : event) : bool :=
  match e with WebviewStart => true | _ => false end.

(** A notice to the user: a console line or an error dialog. *)
Definition is_notice (e : event) : bool :=
  match e with Print _ _ | ShowError _ _ => true | _ => false end.

Definition notice_text (e : event) : string :=
  match e with
  | Print _ s => s
  | ShowError _ s => s
  | _ => EmptyString
  end.

Definition count (p : event -> bool) (l : list event) : nat :=
  length (filter p l).

Definition is_button (c : widget_spec * option placement) : bool :=
  match fst c with Button _ _ _ _ => true | _ => false end.

Definition contains (needle hay : string) : bool :=
  match index 0 needle hay with Some _ => true | None => false end.

Definition one_line (s : string) : bool := negb (contains nl s).

(** The dialog text with its line break written as a blank. *)
Fixpoint on_one_line (s : string) : string :=
  match s with
  | EmptyString => EmptyString
  | String c rest =>
      String (if Ascii.eqb c "010"%char then " "%char else c) (on_one_line rest)
  end.

Definition catchat_url : string := "https://awoo-co.github.io/catchat/".

Definition missing_dialog_text : string :=
  ("pywebview is not installed." ++ nl ++ "Install with: pip install pywebview")%string.

Definition missing_console_text : string :=
  "pywebview is not installed. Install with: pip install pywebview".

Definition tkinter_notice : string :=
  "Tkinter is not available in this environment. Opening in browser...".

(** The world as the module body leaves it, before [main()] runs. *)
Definition after_import (rt : runtime) : world :=
  World (module_globals rt) (snd (module_init rt)) None [] [] false.

(** ** The launcher window as [main] builds it *)

Definition hint_label : widget_spec * option placement :=
  (Label (Widget 0) "Note: For embedded view install 'pywebview' (pip install pywebview)"
     None (Some "gray"),
   Some (Pack false "none" (10, 0))).

Definition launcher_children (has_webview : bool) : list (widget_spec * option placement) :=
  [ (Frame Toplevel 12 12, Some (Pack true "both" (0, 0)));
    (Label (Widget 0) "Open Catchat web UI" (Some (None, 14)) None,
     Some (Pack false "none" (0, 10)));
    (Frame (Widget 0) 0 0, Some (Pack false "none" (0, 0)));
    (Button (Widget 2) "Open in App (embedded)" 22 Fn_open_in_webview,
     Some (Grid 0 0 6 6));
    (Button (Widget 2) "Open in Browser" 22 Fn_open_in_browser,
     Some (Grid 0 1 6 6)) ]
  ++ (if has_webview then [] else [hint_label]).

Definition launcher_window (has_webview alive_ : bool) : tk_window :=
  Window "Catchat" "420x160" (launcher_children has_webview) alive_.

(** The world on entry to [root.mainloop()]. *)
Definition at_mainloop (rt : runtime) (evs : list ui_event) (closed : bool) : world :=
  World (module_globals rt) (snd (module_init rt))
        (Some (launcher_window (HAS_WEBVIEW (module_globals rt)) true)) [] evs closed.

Definition is_close (e : ui_event) : bool :=
  match e with WM_DELETE_WINDOW => true | Click _ => false end.

(** Input that a closed window no longer receives. *)
Fixpoint undelivered (evs : list ui_event) : list ui_event :=
  match evs with
  | [] => []
  | WM_DELETE_WINDOW :: rest => rest
  | Click _ :: rest => undelivered rest
  end.

(** No button of the window is bound to the thread target. *)
Definition safe_buttons (win : tk_window) : bool :=
  forallb (fun c => match fst c with
                    | Button _ _ _ Fn__run => false
                    | _ => true
                    end) (children win).

(** The effects a button command has on the loop's thread when the dialog
    facility is bound. *)
Definition loop_event (g : globals) (e : event) : Prop :=
  e = WebbrowserOpen (URL g) 2 \/
  (HAS_WEBVIEW g = true /\ e = ThreadStart Fn__run true) \/
  (HAS_WEBVIEW g = false /\ e = ShowError "Missing dependency" missing_dialog_text).

(** A label whose text mentions the pywebview package. *)
Definition is_hint (c : widget_spec * option placement) : bool :=
  match fst c with
  | Label _ text _ _ => contains "pywebview" text
  | _ => false
  end.

(** The commands bound to the buttons of a widget list, in creation order. *)
Fixpoint button_commands (cs : list (widget_spec * option placement)) : list callable :=
  match cs with
  | [] => []
  | (Button _ _ _ c, _) :: rest => c :: button_commands rest
  | _ :: rest => button_commands rest
  end.

Definition is_webview_import (e : event) : bool :=
  match e with Import name _ => String.eqb name "webview" | _ => false end.

(** ** What a run of the event loop amounts to *)

(** The input the window receives: everything before the first close
    request. *)
Fixpoint delivered (evs : list ui_event) : list ui_event :=
  match evs with
  | [] => []
  | WM_DELETE_WINDOW :: _ => []
  | Click id :: rest => Click id :: delivered rest
  end.

(** Widget ids of the two buttons, from the order [main] creates widgets. *)
Definition embedded_button : nat := 3.
Definition browser_button : nat := 4.

(** The effect of one delivered click on the loop's thread. *)
Definition click_trace (g : globals) (ev : ui_event) : list event :=
  match ev with
  | Click id =>
      if Nat.eqb id embedded_button then
        [if HAS_WEBVIEW g then ThreadStart Fn__run true
         else ShowError "Missing dependency" missing_dialog_text]
      else if Nat.eqb id browser_button then [WebbrowserOpen (URL g) 2]
      else []
  | WM_DELETE_WINDOW => []
  end.

(** The thread one delivered click starts, if any. *)
Definition click_threads (g : globals) (ev : ui_event) : list thread :=
  match ev with
  | Click id =>
      if Nat.eqb id embedded_button && HAS_WEBVIEW g then [Thread Fn__run true] else []
  | WM_DELETE_WINDOW => []
  end.

Definition loop_trace (g : globals) (evs : list ui_event) : list event :=
  flat_map (click_trace g) (delivered evs).

Definition loop_threads (g : globals) (evs : list ui_event) : list thread :=
  flat_map (click_threads g) (delivered evs).

Definition clicks_on (id : nat) (evs : list ui_event) : nat :=
  length (filter (fun ev => match ev with
                            | Click i => Nat.eqb i id
                            | WM_DELETE_WINDOW => false
                            end) evs).

Definition is_show_error (e : event) : bool :=
  match e with ShowError _ _ => true | _ => false end.

(** The URL an event carries, if it carries one. *)
Definition event_url (e : event) : option string :=
  match e with
  | WebbrowserOpen u _ => Some u
  | CreateWindow _ u => Some u
  | _ => None
  end.

Definition on_catchat (e : event) : bool :=
  match event_url e with
  | Some u => String.eqb u catchat_url
  | None => true
  end.

(** ** Well-formedness of a widget list *)

Definition parent_of (ws : widget_spec) : master :=
  match ws with
  | Frame p _ _ => p
  | Label p _ _ _ => p
  | Button p _ _ _ => p
  end.

Definition master_eqb (a b : master) : bool :=
  match a, b with
  | Toplevel, Toplevel => true
  | Widget i, Widget j => Nat.eqb i j
  | _, _ => false
  end.

Definition is_frame (c : widget_spec * option placement) : bool :=
  match fst c with Frame _ _ _ => true | _ => false end.

(** Every widget hangs in the root or in a frame created before it. *)
Fixpoint parents_earlier (before cs : list (widget_spec * option placement)) : bool :=
  match cs with
  | [] => true
  | c :: rest =>
      match parent_of (fst c) with
      | Toplevel => true
      | Widget j =>
          match nth_error before j with
          | Some f => is_frame f
          | None => false
          end
      end && parents_earlier (before ++ [c]) rest
  end.

Definition is_placed (c : widget_spec * option placement) : bool :=
  match snd c with Some _ => true | None => false end.

(** Two widgets of one master under different geometry managers, or on
    the same grid cell. *)
Definition clash (a b : widget_spec * option placement) : bool :=
  master_eqb (parent_of (fst a)) (parent_of (fst b)) &&
  match snd a, snd b with
  | Some (Pack _ _ _), Some (Grid _ _ _ _) => true
  | Some (Grid _ _ _ _), Some (Pack _ _ _) => true
  | Some (Grid r1 c1 _ _), Some (Grid r2 c2 _ _) => Z.eqb r1 r2 && Z.eqb c1 c2
  | _, _ => false
  end.

Fixpoint no_clashes (cs : list (widget_spec * option placement)) : bool :=
  match cs with
  | [] => true
  | c :: rest => forallb (fun d => negb (clash c d)) rest && no_clashes rest
  end.

Definition well_laid_out (cs : list (widget_spec * option placement)) : bool :=
  forallb is_placed cs && parents_earlier [] cs && no_clashes cs.

(** * Properties *)

(** ** The module body *)

Lemma module_globals_URL (rt : runtime) : URL (module_globals rt) = catchat_url.
Proof. destruct rt as [[] [] []]; reflexivity. Qed.

Lemma module_globals_HAS_WEBVIEW (rt : runtime) :
  HAS_WEBVIEW (module_globals rt) = can_import_webview rt.
Proof. destruct rt as [[] [] []]; reflexivity. Qed.

Lemma module_globals_tk (rt : runtime) :
  tk (module_globals rt) =
  if can_import_tkinter rt && can_import_messagebox rt then Some mod_tkinter else None.
Proof. destruct rt as [[] [] []]; reflexivity. Qed.

Lemma module_globals_messagebox (rt : runtime) :
  messagebox (module_globals rt) =
  if can_import_tkinter rt && can_import_messagebox rt
  then Some mod_tkinter_messagebox else None.
Proof. destruct rt as [[] [] []]; reflexivity. Qed.

Lemma module_globals_webview (rt : runtime) :
  webview (module_globals rt) =
  if HAS_WEBVIEW (module_globals rt) then Some mod_webview else None.
Proof. destruct rt as [[] [] []]; reflexivity. Qed.

(** The dialog facility is bound exactly when the windowing module is. *)
Lemma messagebox_with_tk (rt : runtime) :
  tk (module_globals rt) <> None -> messagebox (module_globals rt) <> None.
Proof. destruct rt as [[] [] []]; cbn; congruence. Qed.

(** ** Counting events *)

Lemma count_app (p : event -> bool) (l1 l2 : list event) :
  count p (l1 ++ l2) = (count p l1 + count p l2)%nat.
Proof. unfold count. now rewrite filter_app, length_app. Qed.

Lemma count_zero_iff (p : event -> bool) (l : list event) :
  count p l = 0%nat <-> Forall (fun e => p e = false) l.
Proof.
  unfold count. induction l as [|e l IH]; cbn.
  - split; auto.
  - destruct (p e) eqn:E; cbn.
    + split; [discriminate|]. intros F. inversion F; congruence.
    + rewrite IH. split; [now constructor|]. intros F. now inversion F.
Qed.

(** ** The two actions, one call at a time *)

Lemma open_in_browser_eq (w : world) :
  open_in_browser w = (Ret tt, emit (WebbrowserOpen (URL (genv w)) 2) w).
Proof. reflexivity. Qed.

Lemma open_in_webview_spawns (w : world) :
  HAS_WEBVIEW (genv w) = true ->
  open_in_webview w =
  (Ret tt, add_thread (Thread Fn__run true) (emit (ThreadStart Fn__run true) w)).
Proof.
  intros H. unfold open_in_webview, bind, global. rewrite H. reflexivity.
Qed.

Lemma open_in_webview_dialog (w : world) (m : pymodule) :
  HAS_WEBVIEW (genv w) = false -> messagebox (genv w) = Some m ->
  open_in_webview w = (Ret tt, emit (ShowError "Missing dependency" missing_dialog_text) w).
Proof.
  intros H Hm. unfold open_in_webview, bind, global. rewrite H. cbn.
  rewrite Hm. unfold messagebox_showerror, getattr, bind, global. now rewrite Hm.
Qed.

Lemma open_in_webview_console (w : world) :
  HAS_WEBVIEW (genv w) = false -> messagebox (genv w) = None ->
  open_in_webview w = (Ret tt, emit (Print Stderr missing_console_text) w).
Proof.
  intros H Hm. unfold open_in_webview, bind, global. rewrite H. cbn.
  now rewrite Hm.
Qed.

(** The three ways through the embedded action. *)
Lemma open_in_webview_eq (w : world) :
  open_in_webview w =
  (Ret tt,
   if HAS_WEBVIEW (genv w) then
     add_thread (Thread Fn__run true) (emit (ThreadStart Fn__run true) w)
   else
     match messagebox (genv w) with
     | Some _ => emit (ShowError "Missing dependency" missing_dialog_text) w
     | None => emit (Print Stderr missing_console_text) w
     end).
Proof.
  destruct (HAS_WEBVIEW (genv w)) eqn:Hh.
  - now apply open_in_webview_spawns.
  - destruct (messagebox (genv w)) as [m|] eqn:Hm.
    + now apply (open_in_webview_dialog w m).
    + now apply open_in_webview_console.
Qed.

Lemma open_in_webview_threads (w : world) :
  threads (snd (open_in_webview w)) =
  threads w ++ (if HAS_WEBVIEW (genv w) then [Thread Fn__run true] else []).
Proof.
  rewrite open_in_webview_eq.
  destruct (HAS_WEBVIEW (genv w)); [|destruct (messagebox (genv w))];
    cbn; rewrite ?app_nil_r; reflexivity.
Qed.

(** The thread target on a started thread, where the embedded module is
    bound: the window is registered, then [webview.start()] refuses. *)
Lemma run_thread_view (w : world) (m : pymodule) :
  webview (genv w) = Some m ->
  run_thread w (Thread Fn__run true) =
  (Raise (WebViewException main_thread_only),
   [CreateWindow "Catchat" (URL (genv w)); Print Stderr "Exception in thread"]).
Proof.
  intros H. unfold run_thread. cbn [World target call].
  unfold _run, webview_create_window, webview_start, getattr, bind, global, raise.
  cbn. rewrite H. cbn. rewrite H. reflexivity.
Qed.

(** The thread target called on the main thread instead: it would hold
    the caller inside [webview.start()] until the view is closed. *)
Lemma direct_run_waits (g : globals) lg r ts pend closed (m : pymodule) :
  webview g = Some m ->
  _run (World g lg r ts pend closed) =
  (if closed then Ret tt else Block,
   World g (lg ++ [CreateWindow "Catchat" (URL g); WebviewStart]) r ts pend closed).
Proof.
  intros H.
  unfold _run, webview_create_window, webview_start, getattr, bind, global, effect.
  cbn. rewrite H. cbn. rewrite H. unfold emit, World. cbn.
  rewrite <- app_assoc. now destruct closed.
Qed.

(** C1: when tkinter is unavailable ([tk] is [None] after the module body),
    running the script builds no window, opens the system browser exactly
    once on the fixed Catchat URL, prints one single-line console notice,
    and returns normally so that the process exits. *)
Theorem no_tkinter_fallback (rt : runtime) (evs : list ui_event) (closed : bool)
    (Htk : tk (module_globals rt) = None) :
  exists w,
    program rt evs closed = (Ret tt, w) /\
    root w = None /\
    threads w = [] /\
    log w = snd (module_init rt)
            ++ [Print Stdout tkinter_notice; WebbrowserOpen catchat_url 2] /\
    count is_browser_open (log w) = 1%nat /\
    count is_print (log w) = 1%nat /\
    one_line tkinter_notice = true /\
    process_exits (Ret tt) w = true.
Proof.
  destruct rt as [[] [] []]; cbn in Htk; try discriminate;
    eexists; (split; [reflexivity|]); repeat split.
Qed.

Lemma no_tkinter_fallback_witness :
  exists w,
    program (Runtime false true true) [Click 3%nat] false = (Ret tt, w) /\
    root w = None /\
    threads w = [] /\
    log w = [Import "tkinter" false; Import "webview" true;
             Print Stdout tkinter_notice; WebbrowserOpen catchat_url 2] /\
    count is_browser_open (log w) = 1%nat /\
    count is_print (log w) = 1%nat /\
    one_line tkinter_notice = true /\
    process_exits (Ret tt) w = true.
Proof.
  exact (no_tkinter_fallback (Runtime false true true) [Click 3%nat] false eq_refl).
Defined.

(** C4: every call of the browser action performs exactly one
    system-browser-open call, on the fixed Catchat URL, and nothing else;
    this holds for both values of the embedded-capability flag. *)
Theorem browser_action_opens_once (rt : runtime) (w : world)
    (Hg : genv w = module_globals rt) :
  exists w',
    open_in_browser w = (Ret tt, w') /\
    log w' = log w ++ [WebbrowserOpen catchat_url 2] /\
    count is_browser_open (log w') = S (count is_browser_open (log w)) /\
    threads w' = threads w /\ root w' = root w /\ genv w' = genv w.
Proof.
  rewrite open_in_browser_eq.
  assert (URL (genv w) = catchat_url) as -> by (rewrite Hg; apply module_globals_URL).
  eexists; split; [reflexivity|]. split; [reflexivity|].
  split; [|repeat split].
  unfold emit; cbn [World log]. rewrite count_app. cbn. lia.
Qed.

Lemma browser_action_opens_once_witness :
  genv (after_import (Runtime true true false)) = module_globals (Runtime true true false) /\
  exists w',
    open_in_browser (after_import (Runtime true true false)) = (Ret tt, w') /\
    log w' = log (after_import (Runtime true true false))
             ++ [WebbrowserOpen catchat_url 2] /\
    count is_browser_open (log w') =
      S (count is_browser_open (log (after_import (Runtime true true false)))) /\
    threads w' = threads (after_import (Runtime true true false)) /\
    root w' = root (after_import (Runtime true true false)) /\
    genv w' = genv (after_import (Runtime true true false)).
Proof.
  split; [reflexivity|].
  apply (browser_action_opens_once (Runtime true true false)). reflexivity.
Defined.

(** C3: with the embedded capability unavailable, the embedded action
    starts no thread and no rendering window, produces exactly one notice
    (a dialog or a console line) that says pywebview is not installed and
    names the [pip install pywebview] remedy, and returns normally. *)
Theorem embedded_action_unavailable (rt : runtime) (w : world)
    (Hg : genv w = module_globals rt)
    (Hno : HAS_WEBVIEW (genv w) = false) :
  exists w' d,
    open_in_webview w = (Ret tt, w') /\
    log w' = log w ++ [d] /\
    is_notice d = true /\
    contains "pywebview is not installed" (notice_text d) = true /\
    contains "pip install pywebview" (notice_text d) = true /\
    is_create_window d = false /\ is_webview_start d = false /\
    threads w' = threads w /\ root w' = root w /\ genv w' = genv w.
Proof.
  destruct (messagebox (genv w)) as [m|] eqn:Hm.
  - rewrite (open_in_webview_dialog w m Hno Hm).
    do 2 eexists; split; [reflexivity|]. repeat split.
  - rewrite (open_in_webview_console w Hno Hm).
    do 2 eexists; split; [reflexivity|]. repeat split.
Qed.

Lemma embedded_action_unavailable_witness :
  genv (after_import (Runtime true true false)) = module_globals (Runtime true true false) /\
  HAS_WEBVIEW (genv (after_import (Runtime true true false))) = false /\
  exists w' d,
    open_in_webview (after_import (Runtime true true false)) = (Ret tt, w') /\
    log w' = log (after_import (Runtime true true false)) ++ [d] /\
    is_notice d = true /\
    contains "pywebview is not installed" (notice_text d) = true /\
    contains "pip install pywebview" (notice_text d) = true /\
    is_create_window d = false /\ is_webview_start d = false /\
    threads w' = threads (after_import (Runtime true true false)) /\
    root w' = root (after_import (Runtime true true false)) /\
    genv w' = genv (after_import (Runtime true true false)).
Proof.
  split; [reflexivity|]. split; [reflexivity|].
  apply (embedded_action_unavailable (Runtime true true false)); reflexivity.
Defined.

(** C9: the embedded action returns normally whatever the module globals
    are bound to; with both the embedded capability and the dialog
    facility absent its only effect is one line on standard error, whose
    text is the dialog's text with the line break written as a blank. *)
Theorem embedded_action_never_raises (w : world) :
  exists w',
    open_in_webview w = (Ret tt, w') /\
    (HAS_WEBVIEW (genv w) = false -> messagebox (genv w) = None ->
     w' = emit (Print Stderr missing_console_text) w /\
     missing_console_text = on_one_line missing_dialog_text).
Proof.
  destruct (HAS_WEBVIEW (genv w)) eqn:Hh.
  - rewrite (open_in_webview_spawns w Hh). eexists; split; [reflexivity|].
    discriminate.
  - destruct (messagebox (genv w)) as [m|] eqn:Hm.
    + rewrite (open_in_webview_dialog w m Hh Hm). eexists; split; [reflexivity|].
      discriminate.
    + rewrite (open_in_webview_console w Hh Hm). eexists; split; [reflexivity|].
      intros _ _. split; reflexivity.
Qed.

Lemma embedded_action_never_raises_witness :
  open_in_webview (after_import (Runtime false false false)) =
  (Ret tt, emit (Print Stderr missing_console_text) (after_import (Runtime false false false))).
Proof.
  destruct (embedded_action_never_raises (after_import (Runtime false false false)))
    as [w' [E H]].
  destruct (H eq_refl eq_refl) as [-> _]. exact E.
Defined.

(** C2: with tkinter and pywebview both importable, a click on the
    embedded button hands off to exactly one new thread and the loop goes
    on at once (the close request that follows is served and the run
    returns).  But the started thread only registers the window: its call
    of [webview.start()] is off the main thread, pywebview raises, the
    interpreter reports the exception on stderr, and the GUI loop that
    would show the view never runs, on either thread. *)
Theorem embedded_click_opens_no_view :
  exists w,
    program (Runtime true true true) [Click 3%nat; WM_DELETE_WINDOW] false = (Ret tt, w) /\
    threads w = [Thread Fn__run true] /\
    log w = snd (module_init (Runtime true true true)) ++ [ThreadStart Fn__run true] /\
    run_thread w (Thread Fn__run true) =
      (Raise (WebViewException main_thread_only),
       [CreateWindow "Catchat" catchat_url; Print Stderr "Exception in thread"]) /\
    count is_webview_start (snd (run_thread w (Thread Fn__run true))) = 0%nat /\
    count is_webview_start (log w) = 0%nat.
Proof.
  eexists. split; [vm_compute; reflexivity|]. repeat split.
Qed.

(** ** The event loop *)

Lemma program_enters_mainloop (rt : runtime) (evs : list ui_event) (closed : bool) :
  tk (module_globals rt) <> None ->
  program rt evs closed = dispatch evs (at_mainloop rt evs closed).
Proof.
  destruct rt as [[] [] []]; intros H;
    try (exfalso; apply H; reflexivity); vm_compute; reflexivity.
Qed.

Lemma program_without_tk (rt : runtime) (evs : list ui_event) (closed : bool) :
  tk (module_globals rt) = None ->
  program rt evs closed =
  (Ret tt,
   World (module_globals rt)
         (snd (module_init rt) ++ [Print Stdout tkinter_notice; WebbrowserOpen catchat_url 2])
         None [] evs closed).
Proof.
  destruct rt as [[] [] []]; intros H;
    try discriminate H; vm_compute; reflexivity.
Qed.

Lemma command_of_safe (g : globals) lg win ts pend closed (id : nat) (c : callable) :
  safe_buttons win = true ->
  command_of id (World g lg (Some win) ts pend closed) = Some c ->
  c = Fn_open_in_browser \/ c = Fn_open_in_webview.
Proof.
  unfold command_of, safe_buttons. cbn. intros Hs.
  destruct (alive win); [|discriminate].
  destruct (nth_error (children win) id) as [[ws pl]|] eqn:E; [|discriminate].
  apply nth_error_In in E.
  rewrite forallb_forall in Hs. specialize (Hs _ E). cbn in Hs.
  destruct ws as [| |? ? ? cmd]; try discriminate.
  intros [= <-]. destruct cmd; auto; discriminate.
Qed.

(** One button command on the loop's thread: it returns, adds one event
    and at most one daemon thread, and touches nothing else. *)
Lemma callback_step (g : globals) lg r ts pend closed (c : callable) :
  messagebox g <> None ->
  c = Fn_open_in_browser \/ c = Fn_open_in_webview ->
  exists e spawned,
    call c (World g lg r ts pend closed) =
      (Ret tt, World g (lg ++ [e]) r (ts ++ spawned) pend closed) /\
    loop_event g e /\
    Forall (fun t => daemon t = true) spawned.
Proof.
  intros Hm [-> | ->]; cbn [World call].
  - exists (WebbrowserOpen (URL g) 2), []. rewrite app_nil_r.
    split; [reflexivity|]. split; [left; reflexivity | constructor].
  - destruct (HAS_WEBVIEW g) eqn:Hh.
    + exists (ThreadStart Fn__run true), [Thread Fn__run true].
      rewrite open_in_webview_spawns by exact Hh.
      split; [reflexivity|]. split; [right; left; auto | repeat constructor].
    + destruct (messagebox g) as [m|] eqn:Em; [|congruence].
      exists (ShowError "Missing dependency" missing_dialog_text), [].
      rewrite (open_in_webview_dialog _ m) by assumption. rewrite app_nil_r.
      split; [reflexivity|]. split; [right; right; auto | constructor].
Qed.

(** The loop on a live window whose buttons are the launcher's: it ends
    exactly when the input holds a close request, leaves the widgets as
    they were, and every effect is one of the button commands'. *)
Lemma dispatch_spec (g : globals) (win : tk_window) (closed : bool) :
  alive win = true -> safe_buttons win = true -> messagebox g <> None ->
  forall evs lg ts pend,
  exists new spawned,
    dispatch evs (World g lg (Some win) ts pend closed) =
      (if existsb is_close evs then Ret tt else Block,
       World g (lg ++ new)
             (Some (Window (title win) (geometry win) (children win)
                           (negb (existsb is_close evs))))
             (ts ++ spawned) (undelivered evs) closed) /\
    Forall (loop_event g) new /\
    Forall (fun t => daemon t = true) spawned.
Proof.
  intros Ha Hs Hm. induction evs as [|ev evs IH]; intros lg ts pend.
  - exists [], []. rewrite !app_nil_r. destruct win as [t ge cs al].
    cbn in Ha. subst al. repeat split; constructor.
  - destruct ev as [id|].
    + cbn [World dispatch existsb is_close orb undelivered].
      destruct (command_of id (World g lg (Some win) ts pend closed)) as [c|] eqn:Ec.
      * apply command_of_safe in Ec; [|exact Hs].
        destruct (callback_step g lg (Some win) ts pend closed c Hm Ec)
          as [e [sp [Ecall [He Hsp]]]].
        rewrite Ecall.
        destruct (IH (lg ++ [e]) (ts ++ sp) pend) as [new [spawned [E [Hn Hd]]]].
        exists (e :: new), (sp ++ spawned).
        rewrite E, <- !app_assoc. cbn [World app].
        split; [reflexivity|]. split; [now constructor | now apply Forall_app].
      * apply IH.
    + exists [], []. rewrite !app_nil_r.
      cbn. repeat split; constructor.
Qed.

Lemma launcher_window_safe (has : bool) : safe_buttons (launcher_window has true) = true.
Proof. destruct has; reflexivity. Qed.

(** A whole run with tkinter available, put together. *)
Lemma program_with_tk (rt : runtime) (evs : list ui_event) (closed : bool) :
  tk (module_globals rt) <> None ->
  exists new spawned,
    program rt evs closed =
      (if existsb is_close evs then Ret tt else Block,
       World (module_globals rt) (snd (module_init rt) ++ new)
             (Some (launcher_window (HAS_WEBVIEW (module_globals rt))
                                    (negb (existsb is_close evs))))
             spawned (undelivered evs) closed) /\
    Forall (loop_event (module_globals rt)) new /\
    Forall (fun t => daemon t = true) spawned.
Proof.
  intros Htk. rewrite program_enters_mainloop by exact Htk.
  unfold at_mainloop.
  destruct (dispatch_spec (module_globals rt)
              (launcher_window (HAS_WEBVIEW (module_globals rt)) true) closed
              eq_refl (launcher_window_safe _) (messagebox_with_tk rt Htk)
              evs (snd (module_init rt)) [] evs) as [new [spawned [E H]]].
  exists new, spawned. split; [exact E | exact H].
Qed.

Lemma loop_events_uncounted (p : event -> bool) (g : globals) (new : list event) :
  (forall e, loop_event g e -> p e = false) ->
  Forall (loop_event g) new -> count p new = 0%nat.
Proof.
  intros Hp Hn. apply count_zero_iff. eapply Forall_impl; [exact Hp | exact Hn].
Qed.

Lemma loop_event_not_print (g : globals) (e : event) :
  loop_event g e -> is_print e = false.
Proof. intros [-> | [[_ ->] | [_ ->]]]; reflexivity. Qed.

Lemma loop_event_not_import (g : globals) (e : event) :
  loop_event g e -> is_webview_import e = false.
Proof. intros [-> | [[_ ->] | [_ ->]]]; reflexivity. Qed.

Lemma webview_imported_once (rt : runtime) :
  count is_webview_import (snd (module_init rt)) = 1%nat.
Proof. destruct rt as [[] [] []]; reflexivity. Qed.

Lemma imports_print_nothing (rt : runtime) :
  count is_print (snd (module_init rt)) = 0%nat.
Proof. destruct rt as [[] [] []]; reflexivity. Qed.

(** No function of [main.py] rebinds a module global. *)
Lemma call_keeps_globals (c : callable) (w : world) :
  genv (snd (call c w)) = genv w.
Proof.
  destruct c; cbn [World call].
  - reflexivity.
  - rewrite open_in_webview_eq.
    destruct (HAS_WEBVIEW (genv w)); [|destruct (messagebox (genv w))]; reflexivity.
  - unfold _run, webview_create_window, webview_start, getattr, bind, global. cbn.
    destruct (webview (genv w)) eqn:Hv; cbn; [|reflexivity].
    rewrite Hv. cbn.
    destruct (on_main_thread w); cbn; [|reflexivity].
    now destruct (view_closed w).
Qed.

Lemma daemons_never_hold (w : world) (ts : list thread) :
  Forall (fun t => daemon t = true) ts ->
  forallb (fun t => negb (keeps_alive w t)) ts = true.
Proof.
  intros H. apply forallb_forall. intros t Ht.
  rewrite Forall_forall in H. unfold keeps_alive. now rewrite (H t Ht).
Qed.

(** C5: when tkinter is available, running the script builds the launcher
    window with exactly two buttons, bound to the embedded action and to
    the browser action, and then stays in the window's event loop: the run
    ends exactly when the user's input holds a close request, which
    destroys the window; without one the loop keeps waiting. *)
Theorem launcher_window_and_loop (rt : runtime) (evs : list ui_event) (closed : bool)
    (Htk : tk (module_globals rt) <> None) :
  exists w win,
    program rt evs closed = (if existsb is_close evs then Ret tt else Block, w) /\
    program rt evs closed = dispatch evs (at_mainloop rt evs closed) /\
    root w = Some win /\
    title win = "Catchat" /\
    children win = launcher_children (HAS_WEBVIEW (module_globals rt)) /\
    length (filter is_button (children win)) = 2%nat /\
    button_commands (children win) = [Fn_open_in_webview; Fn_open_in_browser] /\
    alive win = negb (existsb is_close evs).
Proof.
  destruct (program_with_tk rt evs closed Htk) as [new [spawned [E _]]].
  do 2 eexists. split; [exact E|].
  split; [now apply program_enters_mainloop|].
  split; [reflexivity|].
  destruct (HAS_WEBVIEW (module_globals rt)); repeat split.
Qed.

Lemma launcher_window_and_loop_witness :
  exists w win,
    program (Runtime true true false) [Click 4%nat; WM_DELETE_WINDOW] false = (Ret tt, w) /\
    program (Runtime true true false) [Click 4%nat; WM_DELETE_WINDOW] false =
      dispatch [Click 4%nat; WM_DELETE_WINDOW]
        (at_mainloop (Runtime true true false) [Click 4%nat; WM_DELETE_WINDOW] false) /\
    root w = Some win /\
    title win = "Catchat" /\
    children win = launcher_children false /\
    length (filter is_button (children win)) = 2%nat /\
    button_commands (children win) = [Fn_open_in_webview; Fn_open_in_browser] /\
    alive win = false.
Proof.
  apply (launcher_window_and_loop (Runtime true true false)
           [Click 4%nat; WM_DELETE_WINDOW] false).
  discriminate.
Defined.

(** C10: when tkinter is available, the launcher window holds the gray
    hint label naming 'pywebview' exactly when the embedded capability is
    absent; the label is already there when the event loop is entered,
    before any button command runs, and stays for the whole run; it hangs
    in the outer frame (widget 0).  With the capability present no label
    mentions pywebview. *)
Theorem hint_label_iff_no_webview (rt : runtime) (evs : list ui_event) (closed : bool)
    (Htk : tk (module_globals rt) <> None) :
  exists r w win win0,
    program rt evs closed = dispatch evs (at_mainloop rt evs closed) /\
    root (at_mainloop rt evs closed) = Some win0 /\
    program rt evs closed = (r, w) /\
    root w = Some win /\
    children win = children win0 /\
    filter is_hint (children win0) =
      (if HAS_WEBVIEW (module_globals rt) then [] else [hint_label]) /\
    fst hint_label =
      Label (Widget 0) "Note: For embedded view install 'pywebview' (pip install pywebview)"
            None (Some "gray") /\
    nth_error (children win0) 0 = Some (Frame Toplevel 12 12, Some (Pack true "both" (0, 0))).
Proof.
  destruct (program_with_tk rt evs closed Htk) as [new [spawned [E _]]].
  do 4 eexists.
  split; [now apply program_enters_mainloop|].
  split; [reflexivity|].
  split; [exact E|].
  split; [reflexivity|].
  destruct (HAS_WEBVIEW (module_globals rt)); repeat split.
Qed.

Lemma hint_label_iff_no_webview_witness :
  exists r w win win0,
    program (Runtime true true false) [] false =
      dispatch [] (at_mainloop (Runtime true true false) [] false) /\
    root (at_mainloop (Runtime true true false) [] false) = Some win0 /\
    program (Runtime true true false) [] false = (r, w) /\
    root w = Some win /\
    children win = children win0 /\
    filter is_hint (children win0) = [hint_label] /\
    fst hint_label =
      Label (Widget 0) "Note: For embedded view install 'pywebview' (pip install pywebview)"
            None (Some "gray") /\
    nth_error (children win0) 0 = Some (Frame Toplevel 12 12, Some (Pack true "both" (0, 0))).
Proof.
  apply (hint_label_iff_no_webview (Runtime true true false) [] false).
  discriminate.
Defined.

(** C7: the availability flag is bound by the one import probe of the
    module body, to the outcome of that probe; [webview] is imported once
    in the whole run; no function of the program rebinds a module global,
    so at the end of every run the flag still is the probe's outcome, and
    both readers (the embedded action and the startup hint) follow it. *)
Theorem has_webview_fixed_at_import (rt : runtime) (evs : list ui_event) (closed : bool) :
  HAS_WEBVIEW (module_globals rt) = can_import_webview rt /\
  snd (import_webview rt) = [Import "webview" (can_import_webview rt)] /\
  count is_webview_import (log (snd (program rt evs closed))) = 1%nat /\
  genv (snd (program rt evs closed)) = module_globals rt /\
  (forall c w, genv (snd (call c w)) = genv w) /\
  (forall w, genv w = module_globals rt ->
     threads (snd (open_in_webview w)) =
       threads w ++ (if can_import_webview rt then [Thread Fn__run true] else [])) /\
  (forall win, root (snd (program rt evs closed)) = Some win ->
     filter is_hint (children win) =
       (if can_import_webview rt then [] else [hint_label])).
Proof.
  split; [apply module_globals_HAS_WEBVIEW|].
  split; [destruct rt as [? ? []]; reflexivity|].
  assert (Hrun :
    count is_webview_import (log (snd (program rt evs closed))) = 1%nat /\
    genv (snd (program rt evs closed)) = module_globals rt /\
    (forall win, root (snd (program rt evs closed)) = Some win ->
       filter is_hint (children win) =
         (if can_import_webview rt then [] else [hint_label]))).
  { destruct (tk (module_globals rt)) as [m|] eqn:Htk.
    - destruct (program_with_tk rt evs closed) as [new [spawned [E [Hn _]]]];
        [congruence|].
      rewrite E. cbn [World snd log genv root]. rewrite count_app, webview_imported_once.
      rewrite (loop_events_uncounted _ _ _ (loop_event_not_import _) Hn).
      split; [reflexivity|]. split; [reflexivity|].
      intros win [= <-]. rewrite module_globals_HAS_WEBVIEW.
      now destruct (can_import_webview rt).
    - rewrite (program_without_tk rt evs closed Htk). cbn [World snd log genv root].
      rewrite count_app, webview_imported_once.
      split; [reflexivity|]. split; [reflexivity|]. discriminate. }
  destruct Hrun as [H1 [H2 H3]].
  split; [exact H1|]. split; [exact H2|].
  split; [exact call_keeps_globals|]. split; [|exact H3].
  intros w Hg.
  now rewrite open_in_webview_threads, Hg, module_globals_HAS_WEBVIEW.
Qed.

Lemma has_webview_fixed_at_import_witness :
  genv (snd (program (Runtime true true false) [Click 3%nat; Click 4%nat] false)) =
    module_globals (Runtime true true false) /\
  threads (snd (open_in_webview (at_mainloop (Runtime true true false) [] false))) = [] /\
  filter is_hint (launcher_children false) = [hint_label].
Proof.
  destruct (has_webview_fixed_at_import (Runtime true true false)
              [Click 3%nat; Click 4%nat] false)
    as [_ [_ [_ [Hg [_ [Ht Hw]]]]]].
  split; [exact Hg|].
  split; [exact (Ht (at_mainloop (Runtime true true false) [] false) eq_refl)|].
  exact (Hw (launcher_window false true) eq_refl).
Defined.

(** C8: every thread the embedded action starts is a daemon thread, so in
    every run all started threads are daemons and none of them keeps the
    process alive: the process exits as soon as [main] is done, also while
    an embedded view is still open. *)
Theorem embedded_threads_are_daemons (rt : runtime) (evs : list ui_event) (closed : bool) :
  (forall w, threads (snd (open_in_webview w)) =
             threads w ++ (if HAS_WEBVIEW (genv w) then [Thread Fn__run true] else [])) /\
  exists r w,
    program rt evs closed = (r, w) /\
    Forall (fun t => daemon t = true) (threads w) /\
    forallb (fun t => negb (keeps_alive w t)) (threads w) = true /\
    process_exits r w = match r with Block => false | _ => true end /\
    (existsb is_close evs = true -> process_exits r w = true).
Proof.
  split.
  - exact open_in_webview_threads.
  - destruct (tk (module_globals rt)) as [m|] eqn:Htk.
    + destruct (program_with_tk rt evs closed) as [new [spawned [E [_ Hd]]]];
        [congruence|].
      do 2 eexists. split; [exact E|]. cbn [World threads].
      split; [exact Hd|].
      split; [now apply daemons_never_hold|].
      destruct (existsb is_close evs); cbn [World process_exits threads].
      * split; [|intros _]; now apply daemons_never_hold.
      * split; [reflexivity | discriminate].
    + rewrite (program_without_tk rt evs closed Htk).
      do 2 eexists. split; [reflexivity|]. cbn. repeat split. constructor.
Qed.

Lemma embedded_threads_are_daemons_witness :
  exists w,
    program (Runtime true true true) [Click 3%nat; WM_DELETE_WINDOW] false = (Ret tt, w) /\
    threads w = [Thread Fn__run true] /\
    process_exits (Ret tt) w = true.
Proof.
  destruct (embedded_threads_are_daemons (Runtime true true true)
              [Click 3%nat; WM_DELETE_WINDOW] false)
    as [_ [r [w [E [_ [_ [_ Hx]]]]]]].
  exists w. vm_compute in E. injection E as <- <-.
  split; [reflexivity|]. split; [reflexivity|].
  exact (Hx eq_refl).
Defined.

Lemma uncounted_not_in (p : event -> bool) (l : list event) (e : event) :
  count p l = 0%nat -> In e l -> p e = false.
Proof.
  intros H Hin. apply count_zero_iff in H. rewrite Forall_forall in H. now apply H.
Qed.

(** C6, as stated, fails: with tkinter available and pywebview missing, a
    click on the embedded button reports the missing capability in an
    error dialog, and the whole run writes nothing to either console
    stream. *)
Lemma missing_view_notice_is_a_dialog :
  HAS_WEBVIEW (module_globals (Runtime true true false)) = false /\
  log (snd (program (Runtime true true false) [Click 3%nat; WM_DELETE_WINDOW] false)) =
    [Import "tkinter" true; Import "tkinter.messagebox" true; Import "webview" false;
     ShowError "Missing dependency" missing_dialog_text] /\
  count is_print
    (log (snd (program (Runtime true true false) [Click 3%nat; WM_DELETE_WINDOW] false)))
    = 0%nat.
Proof. repeat split. Qed.

(** C6, amended: the launcher's own code writes console text in two cases
    only.  The main thread of a whole run prints just the one-line notice
    of the no-tkinter fallback, on standard output, and nothing else.  The
    embedded action prints only when both the embedded capability and the
    dialog facility are absent, and then one line on standard error; with
    the dialog facility bound its notice is an error dialog and the
    console stays silent.  The browser action never prints. *)
Theorem console_output_cases (rt : runtime) (evs : list ui_event) (closed : bool) :
  (forall f s, In (Print f s) (log (snd (program rt evs closed))) ->
     tk (module_globals rt) = None /\ f = Stdout /\ s = tkinter_notice) /\
  (tk (module_globals rt) = None ->
     In (Print Stdout tkinter_notice) (log (snd (program rt evs closed))) /\
     count is_print (log (snd (program rt evs closed))) = 1%nat) /\
  (forall w,
     open_in_webview w =
     (Ret tt,
      if HAS_WEBVIEW (genv w) then
        add_thread (Thread Fn__run true) (emit (ThreadStart Fn__run true) w)
      else
        match messagebox (genv w) with
        | Some _ => emit (ShowError "Missing dependency" missing_dialog_text) w
        | None => emit (Print Stderr missing_console_text) w
        end)) /\
  (forall w, open_in_browser w = (Ret tt, emit (WebbrowserOpen (URL (genv w)) 2) w)).
Proof.
  split; [|split; [|split]].
  - intros f s Hin.
    destruct (tk (module_globals rt)) as [m|] eqn:Htk.
    + exfalso.
      destruct (program_with_tk rt evs closed) as [new [spawned [E [Hn _]]]];
        [congruence|].
      rewrite E in Hin. cbn [World snd log] in Hin.
      assert (Hz : count is_print (snd (module_init rt) ++ new) = 0%nat).
      { rewrite count_app, imports_print_nothing.
        now rewrite (loop_events_uncounted _ _ _ (loop_event_not_print _) Hn). }
      pose proof (uncounted_not_in _ _ _ Hz Hin) as Hp. discriminate Hp.
    + rewrite (program_without_tk rt evs closed Htk) in Hin. cbn [World snd log] in Hin.
      apply in_app_or in Hin. destruct Hin as [Hin | [Hin | [Hin | []]]].
      * pose proof (uncounted_not_in _ _ _ (imports_print_nothing rt) Hin) as Hp.
        discriminate Hp.
      * injection Hin as <- <-. auto.
      * discriminate Hin.
  - intros Htk. rewrite (program_without_tk rt evs closed Htk). cbn [World snd log].
    split.
    + apply in_or_app. right. left. reflexivity.
    + rewrite count_app, imports_print_nothing. reflexivity.
  - exact open_in_webview_eq.
  - exact open_in_browser_eq.
Qed.

Lemma console_output_cases_witness :
  In (Print Stdout tkinter_notice)
     (log (snd (program (Runtime false true false) [] false))) /\
  count is_print (log (snd (program (Runtime false true false) [] false))) = 1%nat.
Proof.
  destruct (console_output_cases (Runtime false true false) [] false)
    as [_ [H _]].
  exact (H eq_refl).
Defined.

(** * Further properties of [main.py] *)

(** ** The module body *)

(** X1: the module body binds [tk] and [messagebox] together or not at
    all, binds [webview] exactly when it sets [HAS_WEBVIEW], and every run
    ends with these bindings unchanged. *)
Theorem module_bindings_consistent (rt : runtime) (evs : list ui_event) (closed : bool) :
  (tk (module_globals rt) = None <-> messagebox (module_globals rt) = None) /\
  (webview (module_globals rt) = None <-> HAS_WEBVIEW (module_globals rt) = false) /\
  (tk (module_globals rt) = None <->
     can_import_tkinter rt = false \/ can_import_messagebox rt = false) /\
  genv (snd (program rt evs closed)) = module_globals rt.
Proof.
  split; [|split; [|split]].
  - destruct rt as [[] [] []]; cbn; split; congruence.
  - destruct rt as [[] [] []]; cbn; split; congruence.
  - destruct rt as [[] [] []]; cbn; split; intros H;
      try congruence; auto; destruct H; congruence.
  - destruct (tk (module_globals rt)) as [m|] eqn:Htk.
    + destruct (program_with_tk rt evs closed) as [new [spawned [E _]]];
        [congruence|]. now rewrite E.
    + now rewrite (program_without_tk rt evs closed Htk).
Qed.

Lemma module_bindings_consistent_witness :
  tk (module_globals (Runtime true false true)) = None /\
  messagebox (module_globals (Runtime true false true)) = None.
Proof.
  destruct (module_bindings_consistent (Runtime true false true) [] false)
    as [[H _] [_ [[_ H3] _]]].
  assert (Ht : tk (module_globals (Runtime true false true)) = None)
    by (apply H3; right; reflexivity).
  split; [exact Ht | exact (H Ht)].
Defined.

(** X2: when [tkinter] imports but [from tkinter import messagebox] fails,
    the shared [except] drops [tk] as well: the script takes the browser
    fallback and builds no window although tkinter itself is there. *)
Theorem messagebox_failure_falls_back (rt : runtime) (evs : list ui_event) (closed : bool)
    (Htk : can_import_tkinter rt = true)
    (Hmb : can_import_messagebox rt = false) :
  program rt evs closed =
  (Ret tt,
   World (Globals None None (webview (module_globals rt)) (can_import_webview rt) catchat_url)
         [Import "tkinter" true; Import "tkinter.messagebox" false;
          Import "webview" (can_import_webview rt);
          Print Stdout tkinter_notice; WebbrowserOpen catchat_url 2]
         None [] evs closed).
Proof.
  destruct rt as [t m v]. cbn in Htk, Hmb. subst t m. destruct v; reflexivity.
Qed.

Lemma messagebox_failure_falls_back_witness :
  program (Runtime true false true) [Click 3%nat] false =
  (Ret tt,
   World (Globals None None (Some mod_webview) true catchat_url)
         [Import "tkinter" true; Import "tkinter.messagebox" false;
          Import "webview" true;
          Print Stdout tkinter_notice; WebbrowserOpen catchat_url 2]
         None [] [Click 3%nat] false).
Proof.
  exact (messagebox_failure_falls_back (Runtime true false true) [Click 3%nat] false
           eq_refl eq_refl).
Defined.

(** ** A windowed run, event by event *)

Lemma launcher_command (g : globals) lg (has : bool) ts pend closed (id : nat) :
  command_of id (World g lg (Some (launcher_window has true)) ts pend closed) =
  if Nat.eqb id embedded_button then Some Fn_open_in_webview
  else if Nat.eqb id browser_button then Some Fn_open_in_browser
  else None.
Proof.
  unfold command_of. cbn [World root alive launcher_window children].
  destruct has; do 6 (destruct id as [|id]; [reflexivity|]);
    cbn; destruct id; reflexivity.
Qed.

Lemma existsb_close_delivered (evs : list ui_event) :
  existsb is_close (delivered evs) = false.
Proof. induction evs as [|[id|] evs IH]; cbn; auto. Qed.

Lemma genv_World g lg r ts pend closed : genv (World g lg r ts pend closed) = g.
Proof. reflexivity. Qed.

Lemma emit_World e g lg r ts pend closed :
  emit e (World g lg r ts pend closed) = World g (lg ++ [e]) r ts pend closed.
Proof. reflexivity. Qed.

Lemma add_thread_World t g lg r ts pend closed :
  add_thread t (World g lg r ts pend closed) = World g lg r (ts ++ [t]) pend closed.
Proof. reflexivity. Qed.

(** The loop on the launcher window, as a function of the input. *)
Lemma dispatch_exact (g : globals) (closed : bool) :
  messagebox g <> None ->
  forall evs lg ts pend,
    dispatch evs (World g lg (Some (launcher_window (HAS_WEBVIEW g) true)) ts pend closed) =
    (if existsb is_close evs then Ret tt else Block,
     World g (lg ++ loop_trace g evs)
           (Some (launcher_window (HAS_WEBVIEW g) (negb (existsb is_close evs))))
           (ts ++ loop_threads g evs) (undelivered evs) closed).
Proof.
  intros Hm. unfold loop_trace, loop_threads.
  induction evs as [|[id|] evs IH]; intros lg ts pend.
  - cbn. now rewrite !app_nil_r.
  - cbn [dispatch]. rewrite launcher_command.
    cbn [existsb is_close orb undelivered delivered flat_map click_trace click_threads].
    destruct (Nat.eqb id embedded_button) eqn:E3.
    + cbn [call andb]. rewrite open_in_webview_eq, genv_World.
      destruct (HAS_WEBVIEW g) eqn:Hh.
      * rewrite emit_World, add_thread_World, IH, <- !app_assoc. reflexivity.
      * destruct (messagebox g) as [m|] eqn:Em; [|congruence].
        rewrite emit_World, IH, <- !app_assoc. reflexivity.
    + cbn [andb]. destruct (Nat.eqb id browser_button) eqn:E4.
      * cbn [call]. rewrite open_in_browser_eq, genv_World, emit_World.
        rewrite IH, <- !app_assoc. reflexivity.
      * rewrite IH. reflexivity.
  - cbn. now rewrite !app_nil_r.
Qed.

(** A whole windowed run, as a function of the input. *)
Lemma program_on_input (rt : runtime) (evs : list ui_event) (closed : bool) :
  tk (module_globals rt) <> None ->
  program rt evs closed =
  (if existsb is_close evs then Ret tt else Block,
   World (module_globals rt)
         (snd (module_init rt) ++ loop_trace (module_globals rt) evs)
         (Some (launcher_window (HAS_WEBVIEW (module_globals rt))
                                (negb (existsb is_close evs))))
         (loop_threads (module_globals rt) evs) (undelivered evs) closed).
Proof.
  intros Htk. rewrite program_enters_mainloop by exact Htk. unfold at_mainloop.
  now rewrite (dispatch_exact _ closed (messagebox_with_tk rt Htk)).
Qed.

(** X3: with tkinter available, a run is a function of the user's input:
    the loop's thread performs, for each click delivered before the first
    close request, the effect of the button clicked (nothing for any other
    widget), and starts one thread per delivered click on the embedded
    button when pywebview is there. *)
Theorem windowed_run_exact (rt : runtime) (evs : list ui_event) (closed : bool)
    (Htk : tk (module_globals rt) <> None) :
  program rt evs closed =
  (if existsb is_close evs then Ret tt else Block,
   World (module_globals rt)
         (snd (module_init rt) ++ loop_trace (module_globals rt) evs)
         (Some (launcher_window (HAS_WEBVIEW (module_globals rt))
                                (negb (existsb is_close evs))))
         (loop_threads (module_globals rt) evs) (undelivered evs) closed).
Proof. exact (program_on_input rt evs closed Htk). Qed.

Lemma windowed_run_exact_witness :
  program (Runtime true true true)
          [Click 4%nat; Click 0%nat; Click 3%nat; WM_DELETE_WINDOW; Click 4%nat] false =
  (Ret tt,
   World (module_globals (Runtime true true true))
         [Import "tkinter" true; Import "tkinter.messagebox" true; Import "webview" true;
          WebbrowserOpen catchat_url 2; ThreadStart Fn__run true]
         (Some (launcher_window true false))
         [Thread Fn__run true] [Click 4%nat] false).
Proof.
  apply (windowed_run_exact (Runtime true true true)
           [Click 4%nat; Click 0%nat; Click 3%nat; WM_DELETE_WINDOW; Click 4%nat] false).
  discriminate.
Defined.

Lemma imports_open_nothing (rt : runtime) (p : event -> bool) :
  (forall name ok, p (Import name ok) = false) ->
  count p (snd (module_init rt)) = 0%nat.
Proof.
  intros Hp. apply count_zero_iff.
  destruct rt as [[] [] []]; cbn; repeat constructor; apply Hp.
Qed.

Lemma count_cons (p : event -> bool) (e : event) (l : list event) :
  count p (e :: l) = ((if p e then 1 else 0) + count p l)%nat.
Proof. unfold count. cbn. now destruct (p e). Qed.

Lemma clicks_on_cons (id i : nat) (l : list ui_event) :
  clicks_on id (Click i :: l) = ((if Nat.eqb i id then 1 else 0) + clicks_on id l)%nat.
Proof. unfold clicks_on. cbn. now destruct (Nat.eqb i id). Qed.

Lemma browser_opens_per_click (g : globals) (l : list ui_event) :
  count is_browser_open (flat_map (click_trace g) l) = clicks_on browser_button l.
Proof.
  induction l as [|[i|] l IH]; [reflexivity| |exact IH].
  cbn [World flat_map click_trace]. rewrite count_app, clicks_on_cons, IH.
  destruct (Nat.eqb i embedded_button) eqn:E3.
  - apply Nat.eqb_eq in E3. subst i. now destruct (HAS_WEBVIEW g).
  - now destruct (Nat.eqb i browser_button).
Qed.

Lemma dialogs_per_click (g : globals) (l : list ui_event) :
  count is_show_error (flat_map (click_trace g) l) =
  if HAS_WEBVIEW g then 0%nat else clicks_on embedded_button l.
Proof.
  induction l as [|[i|] l IH].
  - now destruct (HAS_WEBVIEW g).
  - cbn [World flat_map click_trace]. rewrite count_app, IH, clicks_on_cons.
    destruct (Nat.eqb i embedded_button) eqn:E3.
    + now destruct (HAS_WEBVIEW g).
    + destruct (Nat.eqb i browser_button); now destruct (HAS_WEBVIEW g).
  - exact IH.
Qed.

Lemma threads_per_click (g : globals) (l : list ui_event) :
  length (flat_map (click_threads g) l) =
  if HAS_WEBVIEW g then clicks_on embedded_button l else 0%nat.
Proof.
  induction l as [|[i|] l IH].
  - now destruct (HAS_WEBVIEW g).
  - cbn [World flat_map click_threads]. rewrite length_app, IH, clicks_on_cons.
    destruct (Nat.eqb i embedded_button); now destruct (HAS_WEBVIEW g).
  - exact IH.
Qed.

(** X4: in a windowed run the system browser is opened once per delivered
    click on the browser button and never otherwise; each delivered click
    on the embedded button starts one thread when pywebview is there and
    shows one error dialog when it is not. *)
Theorem windowed_run_counts (rt : runtime) (evs : list ui_event) (closed : bool)
    (Htk : tk (module_globals rt) <> None) :
  count is_browser_open (log (snd (program rt evs closed))) =
    clicks_on browser_button (delivered evs) /\
  length (threads (snd (program rt evs closed))) =
    (if can_import_webview rt then clicks_on embedded_button (delivered evs) else 0%nat) /\
  count is_show_error (log (snd (program rt evs closed))) =
    (if can_import_webview rt then 0%nat else clicks_on embedded_button (delivered evs)).
Proof.
  rewrite (program_on_input rt evs closed Htk). cbn [World snd log threads].
  unfold loop_trace, loop_threads.
  rewrite !count_app, browser_opens_per_click, dialogs_per_click, threads_per_click.
  rewrite !imports_open_nothing by reflexivity.
  rewrite module_globals_HAS_WEBVIEW. repeat split.
Qed.

Lemma windowed_run_counts_witness :
  count is_browser_open
    (log (snd (program (Runtime true true false)
                 [Click 4%nat; Click 3%nat; Click 4%nat; WM_DELETE_WINDOW; Click 4%nat] true)))
    = 2%nat /\
  length (threads (snd (program (Runtime true true false)
                 [Click 4%nat; Click 3%nat; Click 4%nat; WM_DELETE_WINDOW; Click 4%nat] true)))
    = 0%nat /\
  count is_show_error
    (log (snd (program (Runtime true true false)
                 [Click 4%nat; Click 3%nat; Click 4%nat; WM_DELETE_WINDOW; Click 4%nat] true)))
    = 1%nat.
Proof.
  apply (windowed_run_counts (Runtime true true false)
           [Click 4%nat; Click 3%nat; Click 4%nat; WM_DELETE_WINDOW; Click 4%nat] true).
  discriminate.
Defined.

Lemma delivered_app_closed (evs post : list ui_event) :
  existsb is_close evs = true -> delivered (evs ++ post) = delivered evs.
Proof.
  induction evs as [|[i|] evs IH]; cbn; intros H; [discriminate| |reflexivity].
  now rewrite IH.
Qed.

Lemma undelivered_app_closed (evs post : list ui_event) :
  existsb is_close evs = true -> undelivered (evs ++ post) = undelivered evs ++ post.
Proof.
  induction evs as [|[i|] evs IH]; cbn; intros H; [discriminate| |reflexivity].
  now apply IH.
Qed.

(** X5: input that arrives after the close request is never acted on: a
    run on [evs ++ post], where [evs] holds a close request, ends as the
    run on [evs] does, with [post] left undelivered. *)
Theorem input_after_close_ignored (rt : runtime) (evs post : list ui_event) (closed : bool)
    (Hclose : existsb is_close evs = true) :
  program rt (evs ++ post) closed =
  (fst (program rt evs closed),
   set_pending (pending (snd (program rt evs closed)) ++ post)
               (snd (program rt evs closed))).
Proof.
  destruct (tk (module_globals rt)) as [m|] eqn:Htk.
  - assert (Hne : tk (module_globals rt) <> None) by congruence.
    rewrite !(program_on_input rt _ closed Hne).
    unfold loop_trace, loop_threads.
    rewrite existsb_app, Hclose, delivered_app_closed, undelivered_app_closed
      by exact Hclose.
    reflexivity.
  - rewrite !(program_without_tk rt _ closed Htk). reflexivity.
Qed.

Lemma input_after_close_ignored_witness :
  program (Runtime true true true)
          ([Click 4%nat; WM_DELETE_WINDOW] ++ [Click 3%nat; Click 4%nat]) false =
  (Ret tt,
   World (module_globals (Runtime true true true))
         [Import "tkinter" true; Import "tkinter.messagebox" true; Import "webview" true;
          WebbrowserOpen catchat_url 2]
         (Some (launcher_window true false)) [] [Click 3%nat; Click 4%nat] false).
Proof.
  exact (input_after_close_ignored (Runtime true true true)
           [Click 4%nat; WM_DELETE_WINDOW] [Click 3%nat; Click 4%nat] false eq_refl).
Defined.

(** X6: the two actions are independent: run one after the other in either
    order, both return, and the two outcomes agree on everything except
    the order of the two entries they add to the effect log. *)
Theorem actions_commute (w : world) :
  exists w1 w2,
    (open_in_browser ;; open_in_webview) w = (Ret tt, w1) /\
    (open_in_webview ;; open_in_browser) w = (Ret tt, w2) /\
    Permutation (log w1) (log w2) /\
    length (log w1) = (length (log w) + 2)%nat /\
    threads w1 = threads w2 /\ root w1 = root w2 /\ genv w1 = genv w2 /\
    pending w1 = pending w2 /\ view_closed w1 = view_closed w2.
Proof.
  unfold bind. rewrite open_in_browser_eq, !open_in_webview_eq, open_in_browser_eq.
  do 2 eexists. split; [reflexivity|]. split; [reflexivity|].
  cbn [World genv emit].
  destruct (HAS_WEBVIEW (genv w)); [|destruct (messagebox (genv w))];
    cbn; rewrite <- !app_assoc, !length_app; cbn;
    (split; [apply Permutation_app_head, perm_swap|]);
    (split; [lia|]); repeat split.
Qed.

Lemma loop_threads_are_views (g : globals) (evs : list ui_event) (t : thread) :
  In t (loop_threads g evs) -> t = Thread Fn__run true /\ HAS_WEBVIEW g = true.
Proof.
  unfold loop_threads. rewrite in_flat_map. intros [[i|] [_ Hin]]; [|destruct Hin].
  cbn in Hin. destruct (Nat.eqb i embedded_button); [|destruct Hin].
  destruct (HAS_WEBVIEW g); cbn in Hin; [|destruct Hin].
  destruct Hin as [<- | []]. auto.
Qed.

Lemma program_threads (rt : runtime) (evs : list ui_event) (closed : bool) (t : thread) :
  In t (threads (snd (program rt evs closed))) ->
  t = Thread Fn__run true /\ HAS_WEBVIEW (module_globals rt) = true.
Proof.
  destruct (tk (module_globals rt)) as [m|] eqn:Htk.
  - rewrite (program_on_input rt evs closed) by congruence.
    apply loop_threads_are_views.
  - rewrite (program_without_tk rt evs closed Htk). intros [].
Qed.

Lemma program_view_closed (rt : runtime) (evs : list ui_event) (closed : bool) :
  view_closed (snd (program rt evs closed)) = closed /\
  genv (snd (program rt evs closed)) = module_globals rt.
Proof.
  destruct (tk (module_globals rt)) as [m|] eqn:Htk.
  - rewrite (program_on_input rt evs closed) by congruence. split; reflexivity.
  - rewrite (program_without_tk rt evs closed Htk). split; reflexivity.
Qed.

(** X7: the [HAS_WEBVIEW] check keeps the thread target away from an
    unbound [webview]: called with [webview] bound to [None], [_run]
    raises [AttributeError] before doing anything, but every thread a run
    of the script starts finds [webview] bound.  Such a thread registers
    exactly one window, on the Catchat URL, and then fails: its
    [webview.start()] is off the main thread, pywebview raises, and the
    thread ends with the exception reported on stderr, without the GUI
    loop ever running. *)
Theorem started_threads_fail_in_start (rt : runtime) (evs : list ui_event) (closed : bool)
    (t : thread)
    (Hin : In t (threads (snd (program rt evs closed)))) :
  run_thread (snd (program rt evs closed)) t =
    (Raise (WebViewException main_thread_only),
     [CreateWindow "Catchat" catchat_url; Print Stderr "Exception in thread"]) /\
  count is_webview_start (snd (run_thread (snd (program rt evs closed)) t)) = 0%nat /\
  (forall w, webview (genv w) = None ->
             _run w = (Raise (AttributeError "create_window"), w)).
Proof.
  assert (Hr : run_thread (snd (program rt evs closed)) t =
               (Raise (WebViewException main_thread_only),
                [CreateWindow "Catchat" catchat_url; Print Stderr "Exception in thread"])).
  { destruct (program_threads rt evs closed t Hin) as [-> Hh].
    destruct (program_view_closed rt evs closed) as [_ Hg].
    rewrite (run_thread_view _ mod_webview).
    - now rewrite Hg, module_globals_URL.
    - now rewrite Hg, module_globals_webview, Hh. }
  split; [exact Hr|]. split; [now rewrite Hr|].
  intros w Hw.
  unfold _run, webview_create_window, getattr, bind, global. cbn.
  now rewrite Hw.
Qed.

Lemma started_threads_fail_in_start_witness :
  run_thread (snd (program (Runtime true true true) [Click 3%nat] false))
             (Thread Fn__run true) =
    (Raise (WebViewException main_thread_only),
     [CreateWindow "Catchat" catchat_url; Print Stderr "Exception in thread"]) /\
  _run (after_import (Runtime true true false)) =
    (Raise (AttributeError "create_window"), after_import (Runtime true true false)).
Proof.
  destruct (started_threads_fail_in_start (Runtime true true true) [Click 3%nat] false
              (Thread Fn__run true) (or_introl eq_refl)) as [H1 [_ H2]].
  split; [exact H1 | exact (H2 (after_import (Runtime true true false)) eq_refl)].
Defined.

(** The thread is there for a reason: called from a button on the main
    thread, [_run] would keep the event loop waiting while the view is
    open. *)
Example direct_run_holds_the_loop :
  fst (_run (at_mainloop (Runtime true true true) [] false)) = Block /\
  fst (open_in_webview (at_mainloop (Runtime true true true) [] false)) = Ret tt.
Proof. split; reflexivity. Qed.

(** X8: the widget tree [main] builds is well laid out in every windowed
    run: every widget has been packed or gridded, each hangs in the root
    or in a frame created before it, and no master has children under both
    [pack] and [grid] or two children on one grid cell (the buttons get a
    frame of their own).  It has five widgets, six with the hint label. *)
Theorem launcher_well_laid_out (rt : runtime) (evs : list ui_event) (closed : bool)
    (Htk : tk (module_globals rt) <> None) :
  exists win,
    root (snd (program rt evs closed)) = Some win /\
    well_laid_out (children win) = true /\
    length (children win) = (if can_import_webview rt then 5 else 6)%nat /\
    geometry win = "420x160".
Proof.
  rewrite (program_on_input rt evs closed Htk). cbn [World snd root].
  eexists. split; [reflexivity|].
  rewrite module_globals_HAS_WEBVIEW.
  destruct (can_import_webview rt); repeat split.
Qed.

Lemma launcher_well_laid_out_witness :
  exists win,
    root (snd (program (Runtime true true false) [Click 3%nat] false)) = Some win /\
    well_laid_out (children win) = true /\
    length (children win) = 6%nat /\
    geometry win = "420x160".
Proof.
  apply (launcher_well_laid_out (Runtime true true false) [Click 3%nat] false).
  discriminate.
Defined.

(** The layout check is not vacuous: gridding the hint label into the
    outer frame, beside the packed widgets, is a clash. *)
Example mixed_managers_rejected :
  well_laid_out (launcher_children true
                 ++ [(Label (Widget 0) "x" None None, Some (Grid 0 0 0 0))]) = false /\
  well_laid_out (launcher_children true
                 ++ [(Label (Widget 2) "x" None None, Some (Grid 0 1 0 0))]) = false /\
  well_laid_out (launcher_children true
                 ++ [(Label (Widget 1) "x" None None, Some (Pack false "none" (0, 0)))]) = false.
Proof. repeat split. Qed.

Lemma loop_event_on_catchat (g : globals) (e : event) :
  URL g = catchat_url -> loop_event g e -> on_catchat e = true.
Proof.
  intros Hu [-> | [[_ ->] | [_ ->]]]; cbn; [|reflexivity|reflexivity].
  rewrite Hu. reflexivity.
Qed.

Lemma imports_carry_no_url (rt : runtime) :
  Forall (fun e => on_catchat e = true /\
                   forall u n, e = WebbrowserOpen u n -> u = catchat_url /\ n = 2)
         (snd (module_init rt)).
Proof.
  apply Forall_forall. intros e He.
  assert (Hi : exists name ok, e = Import name ok).
  { destruct rt as [[] [] []]; cbn in He;
      repeat (destruct He as [<- | He]; [eauto|]); destruct He. }
  destruct Hi as [name [ok ->]]. split; [reflexivity | discriminate].
Qed.

(** X9: one URL throughout: in every run, each browser-open call of the
    main thread and each view created by a started thread is on the fixed
    Catchat URL, and every browser-open call asks for a new tab
    ([new=2]). *)
Theorem one_url_everywhere (rt : runtime) (evs : list ui_event) (closed : bool) :
  forallb on_catchat (log (snd (program rt evs closed))) = true /\
  (forall u n, In (WebbrowserOpen u n) (log (snd (program rt evs closed))) ->
               u = catchat_url /\ n = 2) /\
  (forall t, In t (threads (snd (program rt evs closed))) ->
             forallb on_catchat (snd (run_thread (snd (program rt evs closed)) t)) = true).
Proof.
  assert (Hlog : Forall (fun e => on_catchat e = true /\
                                  forall u n, e = WebbrowserOpen u n ->
                                              u = catchat_url /\ n = 2)
                        (log (snd (program rt evs closed)))).
  { destruct (tk (module_globals rt)) as [m|] eqn:Htk.
    - destruct (program_with_tk rt evs closed) as [new [spawned [E [Hn _]]]];
        [congruence|].
      rewrite E. cbn [World snd log]. apply Forall_app. split.
      + apply imports_carry_no_url.
      + eapply Forall_impl; [|exact Hn]. intros e He. split.
        * apply (loop_event_on_catchat _ _ (module_globals_URL rt) He).
        * intros u n ->. destruct He as [He | [[_ He] | [_ He]]];
            try discriminate He.
          injection He as -> ->. now rewrite module_globals_URL.
    - rewrite (program_without_tk rt evs closed Htk). cbn [World snd log].
      apply Forall_app. split.
      + apply imports_carry_no_url.
      + constructor; [split; [reflexivity | discriminate]|].
        constructor; [|constructor].
        split; [reflexivity|]. intros u n [= <- <-]. auto. }
  split; [|split].
  - apply forallb_forall. intros e He. rewrite Forall_forall in Hlog.
    now apply Hlog.
  - intros u n Hin. rewrite Forall_forall in Hlog.
    now apply (proj2 (Hlog _ Hin) u n).
  - intros t Hin.
    destruct (program_threads rt evs closed t Hin) as [-> Hh].
    destruct (program_view_closed rt evs closed) as [_ Hg].
    rewrite (run_thread_view _ mod_webview)
      by (now rewrite Hg, module_globals_webview, Hh).
    cbn [World snd forallb]. rewrite Hg, module_globals_URL. reflexivity.
Qed.

Lemma one_url_everywhere_witness :
  forallb on_catchat
    (snd (run_thread (snd (program (Runtime true true true) [Click 3%nat; Click 4%nat] false))
                     (Thread Fn__run true))) = true /\
  In (WebbrowserOpen catchat_url 2)
     (log (snd (program (Runtime true true true) [Click 3%nat; Click 4%nat] false))).
Proof.
  destruct (one_url_everywhere (Runtime true true true) [Click 3%nat; Click 4%nat] false)
    as [_ [_ H]].
  split; [exact (H (Thread Fn__run true) (or_introl eq_refl))|].
  vm_compute. auto 10.
Defined.

(** X10: the launcher never waits for an embedded view: whether views get
    closed or stay open, a run returns or keeps waiting for input in the
    same way, with the same effects, threads and window. *)
Theorem launcher_ignores_view_lifetime (rt : runtime) (evs : list ui_event) :
  fst (program rt evs true) = fst (program rt evs false) /\
  log (snd (program rt evs true)) = log (snd (program rt evs false)) /\
  threads (snd (program rt evs true)) = threads (snd (program rt evs false)) /\
  root (snd (program rt evs true)) = root (snd (program rt evs false)) /\
  pending (snd (program rt evs true)) = pending (snd (program rt evs false)).
Proof.
  destruct (tk (module_globals rt)) as [m|] eqn:Htk.
  - rewrite !(program_on_input rt evs) by congruence. repeat split.
  - rewrite !(program_without_tk rt evs _ Htk). repeat split.
Qed.
